(** * TimeBox: the command encoder and the receive buffer of [tbox/timebox.py]

    A shallow embedding of class [TimeBox]: the opcode table, the command
    encoder ([send_command], [set_time]), the receive buffer
    ([has_message], [buffer_starts_with_garbage], [remove_garbage],
    [remove_message], [drop_message_buffer]) and the two drain loops.

    Python integers are [Z]; a Python list of integers is [list Z]; the
    [COMMANDS] dict is a [gmap string Z]; a method of the class is a
    computation in the state-and-exception monad [M] over the object. *)

From Stdlib Require Import ZArith Lia String Ascii DecimalString.
From stdpp Require Import base option list strings gmap.

Local Open Scope Z_scope.

(** ** Exceptions and the state monad of a method call *)

Inductive exn : Type :=
| KeyError (key : string)
| ValueError (msg : string)
| BlockingIOError
| Exception (msg : string).

Inductive result (A : Type) : Type :=
| Ok (a : A)
| Raise (e : exn).

Arguments Ok {A} a.
Arguments Raise {A} e.

(** ** The Python primitives the class uses *)

Module Py.

(** [x in l] on a list of integers. *)
Fixpoint contains (x : Z) (l : list Z) : bool :=
  match l with
  | [] => false
  | y :: l' => if y =? x then true else contains x l'
  end.

(** [l.index(x)]: the position of the first element equal to [x];
    [ValueError] when there is none. *)
Fixpoint index (x : Z) (l : list Z) : result nat :=
  match l with
  | [] => Raise (ValueError "x is not in list")
  | y :: l' =>
      if y =? x then Ok 0%nat
      else match index x l' with
           | Ok i => Ok (S i)
           | Raise e => Raise e
           end
  end.

(** [l[0:pos]] and [l[pos:]] for a position [pos >= 0]; both clamp at the
    end of the list, as [take] and [drop] do. *)
Definition slice_to {A} (pos : nat) (l : list A) : list A := take pos l.
Definition slice_from {A} (pos : nat) (l : list A) : list A := drop pos l.

(** [len(l)]. *)
Definition len {A} (l : list A) : Z := Z.of_nat (length l).

(** [str(n)] for an integer: its decimal numeral. *)
Definition str (n : Z) : string := NilZero.string_of_int (Z.to_int n).

(** [s[0:k]] and [s[k:]] on a string. *)
Fixpoint str_slice_to (k : nat) (s : string) : string :=
  match k, s with
  | S k', String c s' => String c (str_slice_to k' s')
  | _, _ => EmptyString
  end.

Fixpoint str_slice_from (k : nat) (s : string) : string :=
  match k, s with
  | S k', String _ s' => str_slice_from k' s'
  | _, _ => s
  end.

Definition digit_of_ascii (c : ascii) : option Z :=
  let n := Z.of_nat (nat_of_ascii c) in
  if (48 <=? n) && (n <=? 57) then Some (n - 48) else None.

Fixpoint int_digits (acc : Z) (s : string) : option Z :=
  match s with
  | EmptyString => Some acc
  | String c s' =>
      match digit_of_ascii c with
      | Some d => int_digits (10 * acc + d) s'
      | None => None
      end
  end.

(** [int(s)] on a string of decimal digits; [ValueError] on the empty
    string and on any other character.  (Python also accepts a sign,
    surrounding blanks and underscores; a slice of [str] of a
    non-negative integer has none of them.) *)
Definition int (s : string) : result Z :=
  match s with
  | EmptyString => Raise (ValueError "invalid literal for int() with base 10")
  | _ => match int_digits 0 s with
         | Some n => Ok n
         | None => Raise (ValueError "invalid literal for int() with base 10")
         end
  end.

(** [bytes(l)]: every element must be in [range(0, 256)]. *)
Definition bytes (l : list Z) : result (list Z) :=
  if forallb (fun b => (0 <=? b) && (b <? 256)) l then Ok l
  else Raise (ValueError "bytes must be in range(0, 256)").

End Py.

(** ** The collaborators of the class *)

(** [datetime.datetime], the fields [set_time] reads. *)
Record datetime : Type := {
  year : Z; month : Z; day : Z; hour : Z; minute : Z; second : Z
}.

Definition MINYEAR : Z := 1.
Definition MAXYEAR : Z := 9999.

Definition is_leap (y : Z) : bool :=
  (y mod 4 =? 0) && (negb (y mod 100 =? 0) || (y mod 400 =? 0)).

Definition days_in_month (y m : Z) : Z :=
  if m =? 2 then (if is_leap y then 29 else 28)
  else if (m =? 4) || (m =? 6) || (m =? 9) || (m =? 11) then 30
  else 31.

(** The values the constructor of [datetime] accepts. *)
Definition valid_datetime (t : datetime) : Prop :=
  MINYEAR <= year t <= MAXYEAR /\
  1 <= month t <= 12 /\
  1 <= day t <= days_in_month (year t) (month t) /\
  0 <= hour t < 24 /\ 0 <= minute t < 60 /\ 0 <= second t < 60.

(** [TimeBoxMessages] lives in [messages.py]; the class only calls its
    [make_message], which is taken as given. *)
Record TimeBoxMessages : Type := {
  make_message : list Z -> result (list Z)
}.

(** What one [select] on the socket observes: nothing to read within the
    timeout, or bytes that can be read ([Ready []] is a peer that closed:
    [recv] returns no bytes). *)
Inductive poll : Type :=
| NotReady
| Ready (data : list Z).

(** A connected, non-blocking [BluetoothSocket]: what the device will
    deliver, poll by poll, and what was sent so far (oldest first). *)
Record BluetoothSocket : Type := {
  incoming : list poll;
  outgoing : list (list Z)
}.

Module Socket.

(** [select.select([socket], [], [], 0.1)[0]] is non-empty. *)
Definition select (s : BluetoothSocket) : bool * BluetoothSocket :=
  match incoming s with
  | [] => (false, s)
  | NotReady :: rest => (false, {| incoming := rest; outgoing := outgoing s |})
  | Ready _ :: _ => (true, s)
  end.

(** [socket.recv(num_bytes)]: at most [num_bytes] of the readable bytes;
    the others stay readable. *)
Definition recv (num_bytes : Z) (s : BluetoothSocket)
  : result (list Z) * BluetoothSocket :=
  if num_bytes <? 0 then (Raise (ValueError "negative buffersize in recv"), s)
  else
    match incoming s with
    | Ready data :: rest =>
        let n := Z.to_nat num_bytes in
        let later := match drop n data with
                     | [] => rest
                     | more => Ready more :: rest
                     end in
        (Ok (take n data), {| incoming := later; outgoing := outgoing s |})
    | _ => (Raise BlockingIOError, s)
    end.

(** [socket.send(data)]: returns the number of bytes sent. *)
Definition send (data : list Z) (s : BluetoothSocket) : Z * BluetoothSocket :=
  (Py.len data, {| incoming := incoming s; outgoing := outgoing s ++ [data] |}).

End Socket.

(** ** The object *)

(** One connected [TimeBox].  [message_buf] starts as the list of the class
    attribute, which [receive] extends in place; the removals and
    [drop_message_buffer] then bind a new list to the object.  The model
    follows the buffer of one object. *)
Record TimeBox : Type := {
  messages : TimeBoxMessages;
  socket : BluetoothSocket;
  message_buf : list Z
}.

Definition set_socket (s : BluetoothSocket) (self : TimeBox) : TimeBox :=
  {| messages := messages self; socket := s; message_buf := message_buf self |}.

Definition set_message_buf (buf : list Z) (self : TimeBox) : TimeBox :=
  {| messages := messages self; socket := socket self; message_buf := buf |}.

(** A method call: it returns or raises, and leaves the object in a new
    state either way. *)
Definition M (A : Type) : Type := TimeBox -> result A * TimeBox.

Definition ret {A} (a : A) : M A := fun self => (Ok a, self).

Definition raise {A} (e : exn) : M A := fun self => (Raise e, self).

Definition bind {A B} (m : M A) (k : A -> M B) : M B :=
  fun self =>
    match m self with
    | (Ok a, self') => k a self'
    | (Raise e, self') => (Raise e, self')
    end.

Definition lift {A} (r : result A) : M A := fun self => (r, self).

Declare Scope py_scope.
Delimit Scope py_scope with py.
Notation "x <- m ;; k" := (bind m (fun x => k))
  (at level 100, m at next level, right associativity) : py_scope.
Notation "m ;;; k" := (bind m (fun _ => k))
  (at level 100, right associativity) : py_scope.
Local Open Scope py_scope.

(** ** The class attributes *)

Definition COMMANDS : gmap string Z :=
  list_to_map
    [("switch radio"%string, 0x05);
     ("set volume"%string, 0x08);
     ("get volume"%string, 0x09);
     ("set mute"%string, 0x0a);
     ("get mute"%string, 0x0b);
     ("set date time"%string, 0x18);
     ("set image"%string, 0x44);
     ("set view"%string, 0x45);
     ("set animation frame"%string, 0x49);
     ("get temperature"%string, 0x59);
     ("get radio frequency"%string, 0x60);
     ("set radio frequency"%string, 0x61)].

(** [self.COMMANDS[command]]. *)
Definition COMMANDS_getitem (name : string) : M Z :=
  match COMMANDS !! name with
  | Some code => ret code
  | None => raise (KeyError name)
  end.

(** The first argument of [send_command]: a [str] or an opcode. *)
Inductive command : Type :=
| Name (s : string)
| Opcode (code : Z).

(** ** The methods *)

Definition get_message_buf : M (list Z) := fun self => (Ok (message_buf self), self).

Definition put_message_buf (buf : list Z) : M unit := fun self =>
  (Ok tt, set_message_buf buf self).

(** A call on [self.socket]. *)
Definition on_socket {A} (f : BluetoothSocket -> A * BluetoothSocket) : M A :=
  fun self => let (a, s) := f (socket self) in (Ok a, set_socket s self).

Definition receive (num_bytes : Z) : M Z :=
  ready <- on_socket Socket.select ;;
  if ready : bool then
    r <- on_socket (Socket.recv num_bytes) ;;
    data <- lift r ;;
    buf <- get_message_buf ;;
    put_message_buf (buf ++ data) ;;;
    ret (Py.len data)
  else
    ret 0.

Definition send_raw (data : list Z) : M Z := on_socket (Socket.send data).

Definition send_payload (payload : list Z) : M Z := fun self =>
  (msg <- lift (make_message (messages self) payload) ;;
   raw <- lift (Py.bytes msg) ;;
   on_socket (Socket.send raw)) self.

(** [args=None] stands for the empty list. *)
Definition send_command (cmd : command) (args : list Z) : M unit :=
  code <- match cmd with
          | Name s => COMMANDS_getitem s
          | Opcode c => ret c
          end ;;
  let length := Py.len args + 3 in
  let length_lsb := Z.land length 0xff in
  let length_msb := Z.shiftr length 8 in
  let payload := [length_lsb; length_msb; code] ++ args in
  send_payload payload ;;;
  ret tt.

(** [now] is what [datetime.datetime.now()] would return. *)
Definition set_time (now : datetime) (time : option datetime) : M unit :=
  let time := match time with Some t => t | None => now end in
  a0 <- lift (Py.int (Py.str_slice_from 2 (Py.str (year time)))) ;;
  a1 <- lift (Py.int (Py.str_slice_to 2 (Py.str (year time)))) ;;
  let args := [a0; a1; month time; day time; hour time; minute time;
               second time; 0] in
  send_command (Name "set date time") args.

Definition has_message (self : TimeBox) : bool :=
  if Py.len (message_buf self) =? 0 then false
  else match message_buf self with
       | b :: _ => if negb (b =? 0x01) then true
                   else Py.contains 0x02 (message_buf self)
       | [] => false
       end.

Definition buffer_starts_with_garbage (self : TimeBox) : bool :=
  if Py.len (message_buf self) =? 0 then false
  else match message_buf self with
       | b :: _ => negb (b =? 0x01)
       | [] => false
       end.

Definition remove_garbage : M (list Z) :=
  buf <- get_message_buf ;;
  pos <- (if Py.contains 0x01 buf then lift (Py.index 0x01 buf)
          else ret (length buf)) ;;
  let res := Py.slice_to pos buf in
  put_message_buf (Py.slice_from pos buf) ;;;
  ret res.

Definition remove_message : M (list Z) :=
  buf <- get_message_buf ;;
  if negb (Py.contains 0x02 buf) then raise (Exception "There is no message")
  else
    i <- lift (Py.index 0x02 buf) ;;
    let pos := S i in
    let res := Py.slice_to pos buf in
    put_message_buf (Py.slice_from pos buf) ;;;
    ret res.

Definition drop_message_buffer : M unit := put_message_buf [].

(** [while cond: body], with a bound on the number of tests of [cond];
    [None] when the bound is reached. *)
Fixpoint while (fuel : nat) (cond : M bool) (body : M unit) (self : TimeBox)
  : option (result unit * TimeBox) :=
  match fuel with
  | O => None
  | S fuel' =>
      match cond self with
      | (Ok true, self1) =>
          match body self1 with
          | (Ok _, self2) => while fuel' cond body self2
          | (Raise e, self2) => Some (Raise e, self2)
          end
      | (Ok false, self1) => Some (Ok tt, self1)
      | (Raise e, self1) => Some (Raise e, self1)
      end
  end.

Definition clear_input_buffer (fuel : nat) : TimeBox -> option (result unit * TimeBox) :=
  while fuel (n <- receive 1024 ;; ret (n >? 0)) drop_message_buffer.

Definition clear_input_buffer_quick (fuel : nat)
  : TimeBox -> option (result unit * TimeBox) :=
  while fuel (n <- receive 512 ;; ret (n =? 512)) drop_message_buffer.

(** What is left to poll on a socket: one for each poll and one for each
    byte.  Every [receive] that returns bytes makes it smaller, which
    bounds the number of rounds of the drain loops. *)
Definition backlog (s : BluetoothSocket) : nat :=
  sum_list (map (fun p => match p with
                          | NotReady => 1%nat
                          | Ready data => S (length data)
                          end) (incoming s)).

(** ** Running the model *)

Definition plain_messages : TimeBoxMessages := {| make_message := fun p => Ok p |}.

Definition idle_socket : BluetoothSocket := {| incoming := []; outgoing := [] |}.

Definition box (buf : list Z) : TimeBox :=
  {| messages := plain_messages; socket := idle_socket; message_buf := buf |}.

Definition box_receiving (polls : list poll) (buf : list Z) : TimeBox :=
  {| messages := plain_messages;
     socket := {| incoming := polls; outgoing := [] |};
     message_buf := buf |}.

Definition sent (r : result unit * TimeBox) : list (list Z) := outgoing (socket r.2).

(** The check of the year split of [set_time] on one year. *)
Definition year_split_ok (y : Z) : bool :=
  match Py.int (Py.str_slice_from 2 (Py.str y)),
        Py.int (Py.str_slice_to 2 (Py.str y)) with
  | Ok lo, Ok hi => (lo =? y mod 100) && (hi =? y / 100)
  | _, _ => false
  end.

(** Two timestamps to run [set_time] on. *)
Definition leap_day_2024 : datetime :=
  {| year := 2024; month := 2; day := 29; hour := 10; minute := 11; second := 12 |}.

Definition new_year_eve_999 : datetime :=
  {| year := 999; month := 12; day := 31; hour := 23; minute := 59; second := 59 |}.

(** ** The buffer states of the specification *)

(** The four states of the receive buffer; they are properties of its
    content, not stored flags.  This definition follows the words of the
    specification (section 4.3), to compare the predicates of the class
    with. *)
Inductive buffer_state : Type :=
| Empty
| LeadingGarbage
| FrameReady
| Incomplete.

Definition in_state (st : buffer_state) (buf : list Z) : Prop :=
  match st with
  | Empty => buf = []
  | LeadingGarbage => exists b rest, buf = b :: rest /\ b <> 0x01
  | FrameReady => exists rest, buf = 0x01 :: rest /\ 0x02 ∈ buf
  | Incomplete => exists rest, buf = 0x01 :: rest /\ 0x02 ∉ buf
  end.

(** The argument list of the time synchronisation, in the words of the
    specification (section 4.2): the year split into its last two and its
    first two decimal digits, then the other fields and a zero. *)
Definition time_sync_args (t : datetime) : list Z :=
  [year t mod 100; year t / 100; month t; day t; hour t; minute t; second t; 0].

(** ** The views and the images *)

Definition show_temperature (color : option (list Z)) : M unit :=
  let args := [0x01; 0x00] in
  let args := match color with
              | Some c => args ++ c
              | None => args
              end in
  send_command (Name "set view") args.

Definition show_clock (color : option (list Z)) : M unit :=
  let args := [0x00; 0x01] in
  let args := match color with
              | Some c => args ++ c
              | None => args
              end in
  send_command (Name "set view") args.

Definition disable_display : M unit :=
  let args := [0x02; 0x01] in
  send_command (Name "set view") args.

(** The two image builders of [TimeBoxMessages] ([messages.py]) are taken
    as given, as [make_message] is; what an image is does not matter here. *)
Section ImageMessages.

Variable image : Type.
Variable static_image_message : image -> result (list Z).
Variable dynamic_image_message : image -> Z -> Z -> result (list Z).

Definition set_static_image (img : image) : M unit :=
  msg <- lift (static_image_message img) ;;
  raw <- lift (Py.bytes msg) ;;
  (on_socket (Socket.send raw) ;;;
   ret tt).

(** The loop of [set_dynamic_images], from frame number [fnum] on. *)
Fixpoint set_dynamic_images_from (fnum : Z) (images : list image) (frame_delay : Z)
  : M unit :=
  match images with
  | [] => ret tt
  | img :: rest =>
      msg <- lift (dynamic_image_message img fnum frame_delay) ;;
      let fnum := fnum + 1 in
      raw <- lift (Py.bytes msg) ;;
      (on_socket (Socket.send raw) ;;;
       set_dynamic_images_from fnum rest frame_delay)
  end.

Definition set_dynamic_images (images : list image) (frame_delay : Z) : M unit :=
  let fnum := 0 in
  set_dynamic_images_from fnum images frame_delay.

End ImageMessages.

Arguments set_static_image {image} static_image_message img.
Arguments set_dynamic_images_from {image} dynamic_image_message fnum images frame_delay.
Arguments set_dynamic_images {image} dynamic_image_message images frame_delay.

(** The check that the two year slices of [set_time] parse to [lo y] and
    [hi y]. *)
Definition year_split_matches (lo hi : Z -> Z) (y : Z) : bool :=
  match Py.int (Py.str_slice_from 2 (Py.str y)),
        Py.int (Py.str_slice_to 2 (Py.str y)) with
  | Ok a, Ok b => (a =? lo y) && (b =? hi y)
  | _, _ => false
  end.

(** The check that the slice [str(y)[2:]] is empty. *)
Definition year_tail_empty (y : Z) : bool :=
  match Py.str_slice_from 2 (Py.str y) with
  | EmptyString => true
  | _ => false
  end.

(** What the socket sent, whatever the call returned. *)
Definition wire {A} (r : result A * TimeBox) : list (list Z) := outgoing (socket r.2).

(** A list of integers that [bytes] accepts. *)
Definition is_bytes (l : list Z) : Prop := Forall (fun b => 0 <= b < 256) l.

(** ** The notification service ([timebox.py]) *)

Module Notify.

(** The values that reach the colour and image checks from a service call:
    [None], integers, strings and lists of them (floats, booleans and dicts
    are left out). *)
#[local] Unset Elimination Schemes.
Inductive value : Type :=
| VNone
| VInt (n : Z)
| VStr (s : string)
| VList (items : list value).
#[local] Set Elimination Schemes.

Inductive error : Type :=
| TypeError
| IndexError
| Raised (e : exn).

Inductive outcome (A : Type) : Type :=
| Return (a : A)
| Throw (e : error).

Arguments Return {A} a.
Arguments Throw {A} e.

Definition and_then {A B} (o : outcome A) (k : A -> outcome B) : outcome B :=
  match o with
  | Return a => k a
  | Throw e => Throw e
  end.

(** [0 <= chan <= 15]: an order comparison of an integer with [None], a
    string or a list raises [TypeError]. *)
Definition chan_in_range (chan : value) : outcome bool :=
  match chan with
  | VInt n => Return ((0 <=? n) && (n <=? 15))
  | _ => Throw TypeError
  end.

(** [for chan in color: valid = valid and (0 <= chan <= 15)]. *)
Fixpoint valid_color_loop (valid : bool) (chans : list value) : outcome bool :=
  match chans with
  | [] => Return valid
  | chan :: rest =>
      and_then (if valid then chan_in_range chan else Return false)
        (fun valid => valid_color_loop valid rest)
  end.

(** [x * 16] on a value: integers multiply, strings and lists repeat. *)
Fixpoint repeat_string (n : nat) (s : string) : string :=
  match n with
  | O => EmptyString
  | S n' => String.append s (repeat_string n' s)
  end.

Definition times16 (x : value) : outcome value :=
  match x with
  | VInt n => Return (VInt (n * 16))
  | VStr s => Return (VStr (repeat_string 16 s))
  | VList l => Return (VList (concat (replicate 16 l)))
  | VNone => Throw TypeError
  end.

(** [color[i]]. *)
Definition getitem (color : value) (i : nat) : outcome value :=
  match color with
  | VList l => match l !! i with
               | Some x => Return x
               | None => Throw IndexError
               end
  | VStr s => match String.get i s with
              | Some c => Return (VStr (String c EmptyString))
              | None => Throw IndexError
              end
  | _ => Throw TypeError
  end.

Definition convert_color (color : value) : outcome (list value) :=
  and_then (getitem color 0) (fun c0 =>
  and_then (times16 c0) (fun r =>
  and_then (getitem color 1) (fun c1 =>
  and_then (times16 c1) (fun g =>
  and_then (getitem color 2) (fun c2 =>
  and_then (times16 c2) (fun b =>
  Return [r; g; b])))))).

(** [webcolors.hex_to_rgb] is a library function: taken as given. *)
Section HexColors.

Variable hex_to_rgb : string -> result (Z * Z * Z).

Definition hex2rgb (hexcode : string) : outcome (list Z) :=
  match hex_to_rgb hexcode with
  | Ok (r, g, b) => Return [r; g; b]
  | Raise e => Throw (Raised e)
  end.

(** The warning it logs is left out. *)
Definition valid_color (color : value) : outcome bool :=
  let valid := false in
  and_then (match color with
            | VStr s => and_then (hex2rgb s) (fun _ => Return true)
            | _ => Return valid
            end) (fun valid =>
  match color with
  | VList chans =>
      if Py.len chans =? 3 then valid_color_loop true chans else Return valid
  | _ => Return valid
  end).

(** The inner loop of [valid_image] over the pixels of a row: [false] when
    it left by [break]. *)
Fixpoint valid_image_row (pixels : list value) : outcome bool :=
  match pixels with
  | [] => Return true
  | pixel :: rest =>
      and_then (valid_color pixel) (fun ok =>
      if negb ok then Return false else valid_image_row rest)
  end.

(** The outer loop of [valid_image] over the rows. *)
Fixpoint valid_image_rows (valid : bool) (rows : list value) : outcome bool :=
  match rows with
  | [] => Return valid
  | row :: rest =>
      match row with
      | VList pixels =>
          if Py.len pixels =? 11 then
            and_then (valid_image_row pixels) (fun completed =>
            valid_image_rows (if completed then valid else false) rest)
          else Return false
      | _ => Return false
      end
  end.

Definition valid_image (image : value) : outcome bool :=
  let valid := false in
  match image with
  | VList rows =>
      if Py.len rows =? 11 then valid_image_rows true rows else Return valid
  | _ => Return valid
  end.

End HexColors.

(** A colour given as a list of integers, and an image given as rows of
    such colours, as values. *)
Definition color_value (chans : list Z) : value := VList (map VInt chans).

Definition image_value (rows : list (list (list Z))) : value :=
  VList (map (fun row => VList (map color_value row)) rows).

(** "Array of three ints, range 0-15", the docstring of [valid_color]. *)
Definition is_color (chans : list Z) : Prop :=
  length chans = 3%nat /\ Forall (fun n => 0 <= n <= 15) chans.

(** The same as a check that computes, for a channel, a colour and a row
    of an image. *)
Definition chan_ok (n : Z) : bool := (0 <=? n) && (n <=? 15).

Definition color_ok (chans : list Z) : bool :=
  (Py.len chans =? 3) && forallb chan_ok chans.

Definition row_ok (row : list (list Z)) : bool :=
  (Py.len row =? 11) && forallb color_ok row.

End Notify.

(** ** Facts about the list primitives *)

Section ListPrimitives.

Variable x : Z.

Lemma contains_elem_of (l : list Z) : Py.contains x l = true <-> x ∈ l.
Proof.
  induction l as [|y l IH]; simpl.
  - split; [discriminate | intros H; inversion H].
  - destruct (Z.eqb_spec y x) as [->|Hne].
    + split; [intros _; left | reflexivity].
    + rewrite IH. split; [intros H; right; exact H|].
      intros H. apply elem_of_cons in H as [->|H]; [congruence | exact H].
Qed.

Lemma contains_not_elem_of (l : list Z) : Py.contains x l = false <-> x ∉ l.
Proof.
  rewrite <- contains_elem_of. destruct (Py.contains x l); split; congruence.
Qed.

(** [index] stops at the first occurrence. *)
Lemma index_first (pre post : list Z) :
  x ∉ pre -> Py.index x (pre ++ x :: post) = Ok (length pre).
Proof.
  induction pre as [|y pre IH]; simpl; intros Hni.
  - rewrite Z.eqb_refl. reflexivity.
  - apply not_elem_of_cons in Hni as [Hne Hni].
    destruct (Z.eqb_spec y x) as [Heq|_]; [congruence|].
    rewrite (IH Hni). reflexivity.
Qed.

(** A list that holds [x] splits at its first occurrence. *)
Lemma first_occurrence (l : list Z) :
  x ∈ l -> exists pre post, l = pre ++ x :: post /\ x ∉ pre.
Proof.
  induction l as [|y l IH]; intros Hin.
  - inversion Hin.
  - destruct (Z.eq_dec y x) as [->|Hne].
    + exists [], l. split; [reflexivity | apply not_elem_of_nil].
    + apply elem_of_cons in Hin as [Heq|Hin]; [congruence|].
      destruct (IH Hin) as (pre & post & -> & Hni).
      exists (y :: pre), post. split; [reflexivity|].
      apply not_elem_of_cons. split; [congruence | exact Hni].
Qed.

Lemma index_absent (l : list Z) :
  x ∉ l -> exists e, Py.index x l = Raise e.
Proof.
  induction l as [|y l IH]; simpl; intros Hni.
  - eexists. reflexivity.
  - apply not_elem_of_cons in Hni as [Hne Hni].
    destruct (Z.eqb_spec y x) as [Heq|_]; [congruence|].
    destruct (IH Hni) as [e ->]. eexists. reflexivity.
Qed.

End ListPrimitives.

Lemma slice_to_app {A} (pre suf : list A) : Py.slice_to (length pre) (pre ++ suf) = pre.
Proof. unfold Py.slice_to. apply take_app_length. Qed.

Lemma slice_from_app {A} (pre suf : list A) :
  Py.slice_from (length pre) (pre ++ suf) = suf.
Proof. unfold Py.slice_from. apply drop_app_length. Qed.

Lemma set_message_buf_same (self : TimeBox) :
  set_message_buf (message_buf self) self = self.
Proof. destruct self. reflexivity. Qed.

(** ** What the two removals do to the buffer *)

(** [remove_garbage] never raises: it cuts the buffer in front of the first
    start marker. *)
Lemma remove_garbage_cut (self : TimeBox) :
  exists pre suf,
    message_buf self = pre ++ suf /\
    (0x01 ∉ pre) /\
    (suf = [] \/ exists post, suf = 0x01 :: post) /\
    remove_garbage self = (Ok pre, set_message_buf suf self).
Proof.
  unfold remove_garbage, bind, get_message_buf, put_message_buf, ret, lift.
  destruct (Py.contains 0x01 (message_buf self)) eqn:Hc.
  - apply contains_elem_of in Hc.
    destruct (first_occurrence _ _ Hc) as (pre & post & Hbuf & Hni).
    exists pre, (0x01 :: post). rewrite Hbuf.
    rewrite (index_first _ _ _ Hni), slice_to_app, slice_from_app.
    repeat split; eauto.
  - apply contains_not_elem_of in Hc.
    exists (message_buf self), []. rewrite app_nil_r.
    unfold Py.slice_to, Py.slice_from.
    rewrite firstn_all, drop_all.
    repeat split; auto.
Qed.

(** [remove_message] raises and keeps the object as it is when there is no
    end marker, and cuts the buffer behind the first one otherwise. *)
Lemma remove_message_cut (self : TimeBox) :
  ((0x02 ∉ message_buf self) /\
   remove_message self = (Raise (Exception "There is no message"), self)) \/
  (exists pre post,
     message_buf self = pre ++ 0x02 :: post /\
     (0x02 ∉ pre) /\
     remove_message self = (Ok (pre ++ [0x02]), set_message_buf post self)).
Proof.
  unfold remove_message, bind, get_message_buf, put_message_buf, ret, lift, raise.
  destruct (Py.contains 0x02 (message_buf self)) eqn:Hc; cbn [negb].
  - right. apply contains_elem_of in Hc.
    destruct (first_occurrence _ _ Hc) as (pre & post & Hbuf & Hni).
    exists pre, post. rewrite Hbuf, (index_first _ _ _ Hni).
    repeat split; auto.
    replace (pre ++ 0x02 :: post) with ((pre ++ [0x02]) ++ post)
      by (rewrite <- app_assoc; reflexivity).
    replace (S (length pre)) with (length (pre ++ [0x02]))
      by (rewrite length_app; simpl; lia).
    rewrite slice_to_app, slice_from_app. reflexivity.
  - left. apply contains_not_elem_of in Hc. split; auto.
Qed.

(** One [receive]: what it returns and what it leaves, by what the socket
    has to offer. *)
Lemma receive_cases (num_bytes : Z) (self : TimeBox) :
  match incoming (socket self) with
  | [] => receive num_bytes self = (Ok 0, self)
  | NotReady :: rest =>
      receive num_bytes self =
        (Ok 0, set_socket {| incoming := rest; outgoing := outgoing (socket self) |} self)
  | Ready data :: rest =>
      if num_bytes <? 0 then
        exists e, receive num_bytes self = (Raise e, self)
      else
        let got := take (Z.to_nat num_bytes) data in
        let later := match drop (Z.to_nat num_bytes) data with
                     | [] => rest
                     | more => Ready more :: rest
                     end in
        receive num_bytes self =
          (Ok (Py.len got),
           set_message_buf (message_buf self ++ got)
             (set_socket {| incoming := later; outgoing := outgoing (socket self) |} self))
  end.
Proof.
  destruct self as [m [inc out] buf].
  unfold receive, bind, on_socket, Socket.select, Socket.recv, lift,
    get_message_buf, put_message_buf, ret; simpl.
  destruct inc as [|[|data] rest]; simpl; try reflexivity.
  destruct (num_bytes <? 0); simpl; [eexists; reflexivity | reflexivity].
Qed.

(** ** The claims about the receive buffer *)

(** C2: [has_message] is true exactly in the states LeadingGarbage and
    FrameReady, and false exactly in the states Empty and Incomplete; on
    the buffer [0x01, 0x10] it is false. *)
Theorem has_message_states :
  (forall self : TimeBox,
     (has_message self = true <->
        in_state LeadingGarbage (message_buf self) \/
        in_state FrameReady (message_buf self)) /\
     (has_message self = false <->
        in_state Empty (message_buf self) \/
        in_state Incomplete (message_buf self))) /\
  (forall (m : TimeBoxMessages) (s : BluetoothSocket),
     has_message {| messages := m; socket := s; message_buf := [0x01; 0x10] |}
       = false).
Proof.
  split; [|reflexivity].
  intros [m s buf]. unfold has_message, in_state, Py.len; simpl.
  destruct buf as [|b rest]; simpl.
  - split; split; try discriminate; auto.
    intros [(b & r & H & _) | (r & H & _)]; discriminate.
  - destruct (Z.eqb_spec b 1) as [->|Hne]; simpl.
    + destruct (Py.contains 2 rest) eqn:Hc.
      * apply contains_elem_of in Hc.
        split; split; try discriminate; try reflexivity.
        -- intros _. right. exists rest. split; [reflexivity|]. right. exact Hc.
        -- intros [H | (r & _ & Hni)]; [discriminate|].
           exfalso. apply Hni. right. exact Hc.
      * apply contains_not_elem_of in Hc.
        split; split; try discriminate; try reflexivity.
        -- intros [(b & r & H & Hb) | (r & _ & Hin)].
           ++ inversion H; subst. congruence.
           ++ apply elem_of_cons in Hin as [Heq|Hin]; [discriminate | contradiction].
        -- intros _. right. exists rest. split; [reflexivity|].
           apply not_elem_of_cons. split; [discriminate | exact Hc].
    + split; split; try discriminate; try reflexivity.
      * intros _. left. exists b, rest. auto.
      * intros [H | (r & H & _)]; [discriminate|].
        inversion H; subst. congruence.
Qed.

(** C8: [buffer_starts_with_garbage] is true exactly when the buffer is not
    empty and its first byte is not the start marker 0x01; on the empty
    buffer it is false. *)
Theorem buffer_starts_with_garbage_leading :
  (forall self : TimeBox,
     buffer_starts_with_garbage self = true <->
     exists b rest, message_buf self = b :: rest /\ b <> 0x01) /\
  (forall (m : TimeBoxMessages) (s : BluetoothSocket),
     buffer_starts_with_garbage {| messages := m; socket := s; message_buf := [] |}
       = false).
Proof.
  split; [|reflexivity].
  intros [m s buf]. unfold buffer_starts_with_garbage, Py.len; simpl.
  destruct buf as [|b rest]; simpl.
  - split; [discriminate | intros (b & r & H & _); discriminate].
  - destruct (Z.eqb_spec b 1) as [->|Hne]; simpl.
    + split; [discriminate | intros (b & r & H & Hb); inversion H; subst; congruence].
    + split; [intros _; exists b, rest; auto | reflexivity].
Qed.

(** C3: [remove_garbage] returns the bytes in front of the first start
    marker 0x01 and leaves the buffer from that marker on; with no start
    marker it returns the whole buffer and leaves it empty; on the empty
    buffer it returns nothing and leaves it empty; on
    [0x05, 0x06, 0x01, 0x10, 0x02] it returns [0x05, 0x06] and leaves
    [0x01, 0x10, 0x02]. *)
Theorem remove_garbage_prefix :
  (forall self : TimeBox,
     exists pre suf,
       message_buf self = pre ++ suf /\
       (0x01 ∉ pre) /\
       ((suf = [] /\ (0x01 ∉ message_buf self)) \/ exists post, suf = 0x01 :: post) /\
       remove_garbage self = (Ok pre, set_message_buf suf self)) /\
  (forall (m : TimeBoxMessages) (s : BluetoothSocket),
     remove_garbage {| messages := m; socket := s; message_buf := [] |}
       = (Ok [], {| messages := m; socket := s; message_buf := [] |})) /\
  (forall (m : TimeBoxMessages) (s : BluetoothSocket),
     remove_garbage
       {| messages := m; socket := s; message_buf := [0x05; 0x06; 0x01; 0x10; 0x02] |}
       = (Ok [0x05; 0x06],
          {| messages := m; socket := s; message_buf := [0x01; 0x10; 0x02] |})).
Proof.
  split; [|split; reflexivity].
  intros self.
  destruct (remove_garbage_cut self) as (pre & suf & Hbuf & Hni & Hsuf & Hrun).
  exists pre, suf. repeat split; auto.
  destruct Hsuf as [->|Hpost]; [left | right; exact Hpost].
  split; [reflexivity|]. rewrite Hbuf, app_nil_r. exact Hni.
Qed.

(** C4: [remove_message] raises exactly when the buffer holds no end marker
    0x02, and then leaves the object as it was; otherwise it returns the
    bytes up to and including the first 0x02, whatever the first byte is,
    and leaves the bytes behind it. *)
Theorem remove_message_frame :
  (forall self : TimeBox,
     ((0x02 ∉ message_buf self) /\
      exists e, remove_message self = (Raise e, self)) \/
     (exists pre post,
        message_buf self = pre ++ 0x02 :: post /\
        (0x02 ∉ pre) /\
        remove_message self = (Ok (pre ++ [0x02]), set_message_buf post self))) /\
  (forall (m : TimeBoxMessages) (s : BluetoothSocket),
     remove_message
       {| messages := m; socket := s; message_buf := [0x07; 0x01; 0x10; 0x02; 0x09] |}
       = (Ok [0x07; 0x01; 0x10; 0x02],
          {| messages := m; socket := s; message_buf := [0x09] |})).
Proof.
  split; [|reflexivity].
  intros self. destruct (remove_message_cut self) as [[Hni Hrun] | Hcut].
  - left. split; [exact Hni | eexists; exact Hrun].
  - right. exact Hcut.
Qed.

(** C9: the three mutations keep the bytes and their order: [receive]
    appends what it received at the tail, and what [remove_garbage] or a
    successful [remove_message] returns, followed by the buffer they leave,
    is the buffer they found. *)
Theorem buffer_mutations_preserve_bytes :
  (forall (num_bytes : Z) (self : TimeBox),
     match Socket.select (socket self) with
     | (true, s) =>
         match Socket.recv num_bytes s with
         | (Ok data, _) =>
             (receive num_bytes self).1 = Ok (Py.len data) /\
             message_buf (receive num_bytes self).2 = message_buf self ++ data
         | (Raise e, _) =>
             (receive num_bytes self).1 = Raise e /\
             message_buf (receive num_bytes self).2 = message_buf self
         end
     | (false, _) =>
         (receive num_bytes self).1 = Ok 0 /\
         message_buf (receive num_bytes self).2 = message_buf self
     end) /\
  (forall self : TimeBox,
     exists res,
       (remove_garbage self).1 = Ok res /\
       res ++ message_buf (remove_garbage self).2 = message_buf self) /\
  (forall self : TimeBox,
     match remove_message self with
     | (Ok res, self') => res ++ message_buf self' = message_buf self
     | (Raise _, self') => self' = self
     end).
Proof.
  split; [|split].
  - intros n [m [inc out] buf].
    unfold receive, bind, on_socket, Socket.select, Socket.recv, lift,
      get_message_buf, put_message_buf, ret; simpl.
    destruct inc as [|[|data] rest]; simpl; auto.
    destruct (n <? 0); simpl; auto.
  - intros self.
    destruct (remove_garbage_cut self) as (pre & suf & Hbuf & _ & _ & ->).
    exists pre. simpl. auto.
  - intros self.
    destruct (remove_message_cut self) as [[_ ->] | (pre & post & Hbuf & _ & ->)].
    + reflexivity.
    + simpl. rewrite Hbuf, <- app_assoc. reflexivity.
Qed.

(** C10: [remove_garbage] is idempotent: what it returns holds no start
    marker 0x01, the buffer it leaves is empty or begins with 0x01, and a
    second call at once returns nothing and leaves the object as it is. *)
Theorem remove_garbage_idempotent (self : TimeBox) :
  exists res,
    (remove_garbage self).1 = Ok res /\
    (0x01 ∉ res) /\
    (message_buf (remove_garbage self).2 = [] \/
     exists post, message_buf (remove_garbage self).2 = 0x01 :: post) /\
    remove_garbage (remove_garbage self).2 = (Ok [], (remove_garbage self).2).
Proof.
  destruct (remove_garbage_cut self) as (pre & suf & Hbuf & Hni & Hsuf & ->).
  exists pre. simpl. repeat split; auto.
  destruct self as [m s buf]; unfold set_message_buf; simpl.
  destruct Hsuf as [->|[post ->]]; reflexivity.
Qed.

(** ** The claims about the command encoder *)

Lemma length_bytes (n : Z) :
  0 <= n -> Z.land n 0xff = n mod 256 /\ Z.shiftr n 8 = n / 256.
Proof.
  intros Hn. split.
  - change 0xff with (Z.ones 8). rewrite Z.land_ones by lia. reflexivity.
  - rewrite Z.shiftr_div_pow2 by lia. reflexivity.
Qed.

Lemma send_command_opcode (self : TimeBox) (cmd : command) (code : Z) (args : list Z) :
  match cmd with
  | Name s => COMMANDS !! s = Some code
  | Opcode c => c = code
  end ->
  send_command cmd args self =
    (send_payload ([(Py.len args + 3) mod 256; (Py.len args + 3) / 256; code] ++ args) ;;;
     ret tt) self.
Proof.
  intros Hcode. unfold send_command.
  destruct (length_bytes (Py.len args + 3)) as [-> ->]; [unfold Py.len; lia|].
  destruct cmd as [s|c]; unfold bind at 1, COMMANDS_getitem.
  - rewrite Hcode. reflexivity.
  - subst c. reflexivity.
Qed.

(** C1: for a name of the opcode table and arguments with
    [len(args) + 3 <= 0xffff], [send_command] hands to [send_payload] the
    payload [length mod 256, length div 256, opcode] followed by the
    arguments, where [length = len(args) + 3], and both length bytes fit a
    byte; [send_command("set volume", [0x0a])] builds
    [0x04, 0x00, 0x08, 0x0a]. *)
Theorem send_command_builds_payload :
  (forall (self : TimeBox) (name : string) (code : Z) (args : list Z),
     COMMANDS !! name = Some code ->
     Py.len args + 3 <= 0xffff ->
     let length := Py.len args + 3 in
     send_command (Name name) args self =
       (send_payload ([length mod 256; length / 256; code] ++ args) ;;; ret tt) self /\
     0 <= length mod 256 < 256 /\ 0 <= length / 256 < 256) /\
  (forall self : TimeBox,
     send_command (Name "set volume") [0x0a] self =
       (send_payload [0x04; 0x00; 0x08; 0x0a] ;;; ret tt) self).
Proof.
  split.
  - intros self name code args Hcode Hlen length. split.
    + apply (send_command_opcode self (Name name) code args Hcode).
    + unfold length, Py.len in *. split.
      * apply Z.mod_pos_bound. lia.
      * split; [apply Z.div_pos; lia | apply Z.div_lt_upper_bound; lia].
  - intros self.
    apply (send_command_opcode self (Name "set volume") 0x08 [0x0a]).
    vm_compute. reflexivity.
Qed.

Lemma send_command_builds_payload_witness :
  send_command (Name "set mute") [0x01] (box []) =
    (send_payload [0x04; 0x00; 0x0a; 0x01] ;;; ret tt) (box []) /\
  sent (send_command (Name "set mute") [0x01] (box [])) = [[0x04; 0x00; 0x0a; 0x01]].
Proof.
  split; [|vm_compute; reflexivity].
  refine (proj1 (proj1 send_command_builds_payload (box []) "set mute"%string 0x0a [0x01] _ _)).
  - vm_compute. reflexivity.
  - vm_compute. discriminate.
Defined.

(** C7: for a name that is not in the opcode table, [send_command] raises
    [KeyError] and leaves the object as it was: no payload was built and
    nothing was sent. *)
Theorem send_command_unknown_name
  (self : TimeBox) (name : string) (args : list Z) :
  COMMANDS !! name = None ->
  send_command (Name name) args self = (Raise (KeyError name), self).
Proof.
  intros Hnone. unfold send_command, bind at 1, COMMANDS_getitem.
  rewrite Hnone. reflexivity.
Qed.

Lemma send_command_unknown_name_witness :
  send_command (Name "set brightness") [0x0a] (box [0x01]) =
    (Raise (KeyError "set brightness"), box [0x01]).
Proof.
  apply send_command_unknown_name. vm_compute. reflexivity.
Defined.

(** *** The year of [set_time] *)

Lemma year_split_four_digits :
  forallb (fun k => year_split_ok (1000 + Z.of_nat k)) (seq 0 (Z.to_nat 9000)) = true.
Proof. vm_compute. reflexivity. Qed.

(** A year of four digits splits into [year mod 100] and [year / 100]. *)
Lemma year_split (y : Z) :
  1000 <= y <= 9999 ->
  Py.int (Py.str_slice_from 2 (Py.str y)) = Ok (y mod 100) /\
  Py.int (Py.str_slice_to 2 (Py.str y)) = Ok (y / 100).
Proof.
  intros Hy.
  pose proof (proj1 (List.forallb_forall _ _) year_split_four_digits
                (Z.to_nat (y - 1000))) as H.
  cbv beta in H. replace (1000 + Z.of_nat (Z.to_nat (y - 1000))) with y in H by lia.
  assert (Hin : List.In (Z.to_nat (y - 1000)) (seq 0 (Z.to_nat 9000))) by (apply List.in_seq; lia).
  specialize (H Hin). unfold year_split_ok in H.
  destruct (Py.int (Py.str_slice_from 2 (Py.str y))) as [lo|]; [|discriminate].
  destruct (Py.int (Py.str_slice_to 2 (Py.str y))) as [hi|]; [|discriminate].
  apply andb_prop in H as [Hlo Hhi].
  apply Z.eqb_eq in Hlo, Hhi. subst. auto.
Qed.

(** C6, as amended: for a timestamp whose year has four digits, [set_time]
    sends the command "set date time" (opcode 0x18) through [send_command]
    with the arguments [year mod 100, year div 100, month, day, hour,
    minute, second, 0]. *)
Theorem set_time_four_digit_year
  (self : TimeBox) (now t : datetime) :
  valid_datetime t ->
  1000 <= year t ->
  set_time now (Some t) self =
    send_command (Name "set date time") (time_sync_args t) self /\
  send_command (Name "set date time") (time_sync_args t) self =
    (send_payload ([11; 0; 0x18] ++ time_sync_args t) ;;; ret tt) self.
Proof.
  intros (Hyear & _) H1000. unfold MAXYEAR in Hyear. split.
  - unfold set_time, time_sync_args.
    destruct (year_split (year t)) as [Hlo Hhi]; [lia|].
    unfold bind at 1, lift at 1. rewrite Hlo.
    unfold bind at 1, lift at 1. rewrite Hhi. reflexivity.
  - apply (send_command_opcode self (Name "set date time") 0x18 (time_sync_args t)).
    vm_compute. reflexivity.
Qed.

Lemma set_time_four_digit_year_witness :
  valid_datetime leap_day_2024 /\
  sent (set_time leap_day_2024 (Some leap_day_2024) (box [])) =
    [[11; 0; 0x18; 24; 20; 2; 29; 10; 11; 12; 0]].
Proof.
  assert (Hv : valid_datetime leap_day_2024)
    by (vm_compute; repeat split; congruence).
  split; [exact Hv|].
  destruct (set_time_four_digit_year (box []) leap_day_2024 leap_day_2024 Hv) as [-> ->].
  - vm_compute. congruence.
  - vm_compute. reflexivity.
Defined.

(** C6 as it is written fails on a year of three digits: in the year 999
    the string slices give 9 and 99, not 99 and 9. *)
Lemma set_time_three_digit_year :
  ~ (forall (self : TimeBox) (now t : datetime),
       valid_datetime t ->
       set_time now (Some t) self =
         send_command (Name "set date time") (time_sync_args t) self).
Proof.
  intros H.
  specialize (H (box []) new_year_eve_999 new_year_eve_999).
  assert (Hv : valid_datetime new_year_eve_999)
    by (vm_compute; repeat split; congruence).
  apply H in Hv. apply (f_equal sent) in Hv. vm_compute in Hv. discriminate.
Qed.

(** With a year of one or two digits the first slice is empty, and
    [set_time] raises before anything is sent. *)
Example set_time_year_5 :
  set_time leap_day_2024
    (Some {| year := 5; month := 1; day := 1; hour := 0; minute := 0; second := 0 |})
    (box [])
  = (Raise (ValueError "invalid literal for int() with base 10"), box []).
Proof. reflexivity. Qed.

(** ** The drain loops *)

(** A [receive] of a non-negative number of bytes returns, appends what it
    read, and reads from the backlog. *)
Lemma receive_ok (num_bytes : Z) (self : TimeBox) :
  0 <= num_bytes ->
  exists data self1,
    receive num_bytes self = (Ok (Py.len data), self1) /\
    message_buf self1 = message_buf self ++ data /\
    Py.len data <= num_bytes /\
    (backlog (socket self1) <= backlog (socket self))%nat /\
    (data <> [] -> (backlog (socket self1) < backlog (socket self))%nat).
Proof.
  intros Hn. pose proof (receive_cases num_bytes self) as H.
  unfold backlog. destruct (incoming (socket self)) as [|[|data] rest] eqn:Hin.
  - exists [], self. rewrite H, app_nil_r, Hin. unfold Py.len. simpl.
    repeat split; auto; try lia; congruence.
  - exists [], (set_socket {| incoming := rest; outgoing := outgoing (socket self) |} self).
    rewrite H. unfold Py.len. simpl. rewrite app_nil_r.
    repeat split; auto; try lia; congruence.
  - destruct (Z.ltb_spec num_bytes 0) as [|_]; [lia|]. cbv zeta in H.
    eexists _, _. split; [exact H|]. unfold Py.len. simpl.
    pose proof (length_take data (Z.to_nat num_bytes)) as Htake.
    pose proof (length_drop data (Z.to_nat num_bytes)) as Hdrop.
    assert (Hgot : take (Z.to_nat num_bytes) data <> [] ->
                   (0 < length (take (Z.to_nat num_bytes) data))%nat).
    { destruct (take (Z.to_nat num_bytes) data); [congruence | simpl; lia]. }
    split; [reflexivity|]. split; [lia|].
    destruct (drop (Z.to_nat num_bytes) data) as [|b more]; simpl in *.
    + split; [lia | intros _; lia].
    + split; [lia | intros Hne; specialize (Hgot Hne); lia].
Qed.

Lemma clear_input_buffer_unfold (fuel : nat) (self : TimeBox) :
  clear_input_buffer (S fuel) self =
    match receive 1024 self with
    | (Ok n, self1) =>
        if n >? 0 then clear_input_buffer fuel (set_message_buf [] self1)
        else Some (Ok tt, self1)
    | (Raise e, self1) => Some (Raise e, self1)
    end.
Proof.
  unfold clear_input_buffer; simpl. unfold bind at 1.
  destruct (receive 1024 self) as [[n|e] self1]; [|reflexivity].
  unfold ret. destruct (n >? 0); reflexivity.
Qed.

Lemma clear_input_buffer_quick_unfold (fuel : nat) (self : TimeBox) :
  clear_input_buffer_quick (S fuel) self =
    match receive 512 self with
    | (Ok n, self1) =>
        if n =? 512 then clear_input_buffer_quick fuel (set_message_buf [] self1)
        else Some (Ok tt, self1)
    | (Raise e, self1) => Some (Raise e, self1)
    end.
Proof.
  unfold clear_input_buffer_quick; simpl. unfold bind at 1.
  destruct (receive 512 self) as [[n|e] self1]; [|reflexivity].
  unfold ret. destruct (n =? 512); reflexivity.
Qed.

Lemma len_nil_iff {A} (l : list A) : Py.len l = 0 <-> l = [].
Proof.
  unfold Py.len. destruct l; simpl; split; try reflexivity; try discriminate; lia.
Qed.

(** The full drain returns once the bound exceeds the backlog.  The buffer
    it leaves is empty when a round of the loop ran, and is the buffer it
    found when the first [receive] brought nothing. *)
Lemma clear_input_buffer_returns (fuel : nat) :
  forall self : TimeBox,
    (backlog (socket self) < fuel)%nat ->
    exists self',
      clear_input_buffer fuel self = Some (Ok tt, self') /\
      (message_buf self' = [] \/ message_buf self' = message_buf self).
Proof.
  induction fuel as [|fuel IH]; intros self Hfuel; [lia|].
  rewrite clear_input_buffer_unfold.
  destruct (receive_ok 1024 self) as (data & self1 & -> & Hbuf & _ & Hle & Hlt); [lia|].
  destruct (Z.gtb_spec (Py.len data) 0) as [Hpos|Hzero].
  - assert (Hne : data <> []) by (intros ->; unfold Py.len in Hpos; simpl in Hpos; lia).
    destruct (IH (set_message_buf [] self1)) as (self' & Hrun & Hres).
    { simpl. specialize (Hlt Hne). lia. }
    exists self'. split; [exact Hrun|]. left. destruct Hres as [H|H]; exact H.
  - assert (Hnil : data = []) by (apply len_nil_iff; unfold Py.len in *; lia).
    exists self1. split; [reflexivity|]. right. rewrite Hbuf, Hnil, app_nil_r. reflexivity.
Qed.

(** The quick drain returns as well; the buffer it leaves ends with the
    last, short batch, which no round of the loop dropped. *)
Lemma clear_input_buffer_quick_returns (fuel : nat) :
  forall self : TimeBox,
    (backlog (socket self) < fuel)%nat ->
    exists self' last,
      clear_input_buffer_quick fuel self = Some (Ok tt, self') /\
      Py.len last < 512 /\
      (message_buf self' = last \/ message_buf self' = message_buf self ++ last).
Proof.
  induction fuel as [|fuel IH]; intros self Hfuel; [lia|].
  rewrite clear_input_buffer_quick_unfold.
  destruct (receive_ok 512 self) as (data & self1 & -> & Hbuf & Hmax & Hle & Hlt); [lia|].
  destruct (Z.eqb_spec (Py.len data) 512) as [Hfull|Hshort].
  - assert (Hne : data <> []) by (intros ->; unfold Py.len in Hfull; simpl in Hfull; lia).
    destruct (IH (set_message_buf [] self1)) as (self' & last & Hrun & Hlast & Hres).
    { simpl. specialize (Hlt Hne). lia. }
    exists self', last. split; [exact Hrun|]. split; [exact Hlast|].
    left. destruct Hres as [H|H]; exact H.
  - exists self1, data. split; [reflexivity|]. split; [lia|]. right. exact Hbuf.
Qed.

(** C5: the drain loops do not always leave the buffer empty.  With
    nothing to read, [clear_input_buffer] returns without a round and the
    bytes that were in the buffer stay; and [clear_input_buffer_quick]
    appends the short batch that ends the loop and returns without
    dropping it. *)
Theorem drain_loops_leave_bytes (fuel : nat) :
  clear_input_buffer (S fuel) (box [0x05]) = Some (Ok tt, box [0x05]) /\
  clear_input_buffer_quick (S fuel) (box_receiving [Ready [0x01; 0x10; 0x02]] [])
    = Some (Ok tt, box [0x01; 0x10; 0x02]).
Proof.
  split.
  - rewrite clear_input_buffer_unfold. reflexivity.
  - rewrite clear_input_buffer_quick_unfold. reflexivity.
Qed.

(** ** Sending: what reaches the wire *)

Lemma bytes_accepts (l : list Z) : is_bytes l -> Py.bytes l = Ok l.
Proof.
  intros H. unfold Py.bytes.
  replace (forallb (fun b => (0 <=? b) && (b <? 256)) l) with true; [reflexivity|].
  symmetry. apply List.forallb_forall. intros b Hb.
  apply list_elem_of_In in Hb.
  pose proof (proj1 (Forall_forall _ _) H b Hb). cbv beta in *. lia.
Qed.

Lemma bytes_result (l : list Z) :
  (is_bytes l /\ Py.bytes l = Ok l) \/ (~ is_bytes l /\ exists e, Py.bytes l = Raise e).
Proof.
  unfold Py.bytes.
  destruct (forallb (fun b => (0 <=? b) && (b <? 256)) l) eqn:Hall.
  - left. split; [|reflexivity]. apply Forall_forall. intros b Hb.
    apply list_elem_of_In in Hb.
    pose proof (proj1 (List.forallb_forall _ _) Hall b Hb). cbv beta in *. lia.
  - right. split; [|eexists; reflexivity]. intros H.
    apply bytes_accepts in H. unfold Py.bytes in H. rewrite Hall in H. discriminate.
Qed.

(** What a [send_payload] can do. *)
Lemma send_payload_result (self : TimeBox) (payload : list Z) :
  (exists msg,
     make_message (messages self) payload = Ok msg /\
     is_bytes msg /\
     send_payload payload self =
       (Ok (Py.len msg),
        set_socket {| incoming := incoming (socket self);
                      outgoing := outgoing (socket self) ++ [msg] |} self)) \/
  (exists e, send_payload payload self = (Raise e, self)).
Proof.
  unfold send_payload, bind, lift.
  destruct (make_message (messages self) payload) as [msg|e] eqn:Hmsg.
  - destruct (bytes_result msg) as [[Hb ->] | [_ [e ->]]].
    + left. exists msg. auto.
    + right. exists e. reflexivity.
  - right. exists e. reflexivity.
Qed.


(** [send_command] with a numeric opcode does not consult the table, and
    the two bytes in front of the opcode are the length of the whole
    payload, low byte first, for arguments of any length; the high part
    fits a byte exactly when [len(args) + 3 <= 0xffff]. *)
Theorem send_command_length_prefix (self : TimeBox) (code : Z) (args : list Z) :
  exists lsb msb,
    send_command (Opcode code) args self =
      (send_payload (lsb :: msb :: code :: args) ;;; ret tt) self /\
    lsb + 256 * msb = Py.len (lsb :: msb :: code :: args) /\
    0 <= lsb < 256 /\
    0 <= msb /\
    (msb < 256 <-> Py.len args + 3 <= 0xffff).
Proof.
  exists ((Py.len args + 3) mod 256), ((Py.len args + 3) / 256).
  split; [apply (send_command_opcode self (Opcode code) code args); reflexivity|].
  assert (Hlen : Py.len ((Py.len args + 3) mod 256 :: (Py.len args + 3) / 256
                           :: code :: args) = Py.len args + 3)
    by (unfold Py.len; simpl; lia).
  rewrite Hlen. unfold Py.len.
  pose proof (Z.div_mod (Z.of_nat (length args) + 3) 256 ltac:(lia)) as Hdm.
  pose proof (Z.mod_pos_bound (Z.of_nat (length args) + 3) 256 ltac:(lia)) as Hmod.
  split; [lia|]. split; [lia|]. split; [apply Z.div_pos; lia|].
  split; intros H.
  - lia.
  - apply Z.div_lt_upper_bound; lia.
Qed.

(** What a [send_command] can do: raise and leave the object as it was, or
    send one message of bytes and return [None]. *)
Lemma send_command_result (self : TimeBox) (cmd : command) (args : list Z) :
  (exists e, send_command cmd args self = (Raise e, self)) \/
  (exists msg,
     is_bytes msg /\
     send_command cmd args self =
       (Ok tt, set_socket {| incoming := incoming (socket self);
                             outgoing := outgoing (socket self) ++ [msg] |} self)).
Proof.
  assert (Hsent : forall code,
             match cmd with
             | Name s => COMMANDS !! s = Some code
             | Opcode c => c = code
             end ->
             (exists e, send_command cmd args self = (Raise e, self)) \/
             (exists msg,
                is_bytes msg /\
                send_command cmd args self =
                  (Ok tt, set_socket {| incoming := incoming (socket self);
                                        outgoing := outgoing (socket self) ++ [msg] |}
                            self))).
  { intros code Hcode. rewrite (send_command_opcode self cmd code args Hcode).
    unfold bind.
    match goal with |- context [send_payload ?p self] =>
      destruct (send_payload_result self p) as [(msg & _ & Hb & ->) | [e ->]]
    end.
    - right. exists msg. split; [exact Hb | reflexivity].
    - left. exists e. reflexivity. }
  destruct cmd as [s|c].
  - destruct (COMMANDS !! s) as [code|] eqn:Hs.
    + apply (Hsent code). reflexivity.
    + left. exists (KeyError s).
      unfold send_command, bind at 1, COMMANDS_getitem. rewrite Hs. reflexivity.
  - apply (Hsent c). reflexivity.
Qed.

(** [send_command] does not touch the receive side and keeps what was sent:
    the buffer and the pending input are as before, and the socket sent at
    most one more message, a list of bytes. *)
Theorem send_command_appends_one (self : TimeBox) (cmd : command) (args : list Z) :
  message_buf (send_command cmd args self).2 = message_buf self /\
  incoming (socket (send_command cmd args self).2) = incoming (socket self) /\
  exists tail,
    wire (send_command cmd args self) = outgoing (socket self) ++ tail /\
    (length tail <= 1)%nat /\
    Forall is_bytes tail.
Proof.
  unfold wire.
  destruct (send_command_result self cmd args) as [[e ->] | (msg & Hb & ->)]; simpl.
  - split; [reflexivity|]. split; [reflexivity|].
    exists []. rewrite app_nil_r. split; [reflexivity|]. split; [simpl; lia|].
    apply Forall_nil; exact I.
  - split; [reflexivity|]. split; [reflexivity|].
    exists [msg]. split; [reflexivity|]. split; [simpl; lia|].
    apply Forall_cons; auto.
Qed.

Ltac table_entry H :=
  repeat (apply elem_of_cons in H as [H|H]; [simplify_eq |]);
  [.. | apply elem_of_nil in H; destruct H].

(** The opcode table maps its names to distinct opcodes, each a byte, so a
    command byte on the wire names one command. *)
Theorem COMMANDS_distinct_bytes (name1 name2 : string) (code : Z) :
  COMMANDS !! name1 = Some code ->
  COMMANDS !! name2 = Some code ->
  name1 = name2 /\ 0 <= code < 256.
Proof.
  intros H1 H2. unfold COMMANDS in *.
  apply elem_of_list_to_map_2 in H1, H2.
  table_entry H1; table_entry H2; split; (reflexivity || lia).
Qed.

Lemma COMMANDS_distinct_bytes_witness :
  "get mute"%string = "get mute"%string /\ 0 <= 0x0b < 256.
Proof.
  apply (COMMANDS_distinct_bytes "get mute" "get mute" 0x0b); vm_compute; reflexivity.
Defined.

(** The three views are "set view" commands (opcode 0x45) whose first two
    arguments select the view: 0, 1 for the clock, 1, 0 for the
    temperature, 2, 1 for the blank display; a colour follows them
    unchanged. *)
Theorem views_payload (self : TimeBox) (color : list Z) :
  let length := Py.len color + 5 in
  show_clock (Some color) self =
    (send_payload ([length mod 256; length / 256; 0x45; 0x00; 0x01] ++ color) ;;;
     ret tt) self /\
  show_temperature (Some color) self =
    (send_payload ([length mod 256; length / 256; 0x45; 0x01; 0x00] ++ color) ;;;
     ret tt) self /\
  show_clock None self = (send_payload [5; 0; 0x45; 0x00; 0x01] ;;; ret tt) self /\
  show_temperature None self = (send_payload [5; 0; 0x45; 0x01; 0x00] ;;; ret tt) self /\
  disable_display self = (send_payload [5; 0; 0x45; 0x02; 0x01] ;;; ret tt) self.
Proof.
  assert (Hview : COMMANDS !! "set view"%string = Some 0x45) by (vm_compute; reflexivity).
  assert (Hlen : forall a b, Py.len (a :: b :: color) + 3 = Py.len color + 5)
    by (intros; unfold Py.len; simpl; lia).
  cbv zeta. unfold show_clock, show_temperature, disable_display.
  split; [|split; [|split; [|split]]].
  - rewrite (send_command_opcode self (Name "set view") 0x45 _ Hview).
    simpl app. rewrite Hlen. reflexivity.
  - rewrite (send_command_opcode self (Name "set view") 0x45 _ Hview).
    simpl app. rewrite Hlen. reflexivity.
  - exact (send_command_opcode self (Name "set view") 0x45 [0x00; 0x01] Hview).
  - exact (send_command_opcode self (Name "set view") 0x45 [0x01; 0x00] Hview).
  - exact (send_command_opcode self (Name "set view") 0x45 [0x02; 0x01] Hview).
Qed.

(** ** Sending images *)

Section ImageFrames.

Context {image : Type}.
Variable dynamic_image_message : image -> Z -> Z -> result (list Z).
Variable frame_delay : Z.

(** The frames the loop sends when every message builds. *)
Lemma set_dynamic_images_from_sends (enc : image -> Z -> list Z) (images : list image) :
  forall (fnum : Z) (self : TimeBox),
    (forall (i : nat) (img : image),
       images !! i = Some img ->
       dynamic_image_message img (fnum + Z.of_nat i) frame_delay
         = Ok (enc img (fnum + Z.of_nat i)) /\
       is_bytes (enc img (fnum + Z.of_nat i))) ->
    set_dynamic_images_from dynamic_image_message fnum images frame_delay self =
      (Ok tt,
       set_socket {| incoming := incoming (socket self);
                     outgoing := outgoing (socket self) ++
                                 imap (fun i img => enc img (fnum + Z.of_nat i)) images |}
         self).
Proof.
  induction images as [|img rest IH]; intros fnum self Hall.
  - simpl. rewrite app_nil_r. destruct self as [m [inc out] buf]. reflexivity.
  - destruct (Hall 0%nat img eq_refl) as [Hmsg Hb].
    rewrite Z.add_0_r in Hmsg, Hb.
    cbn [set_dynamic_images_from]. unfold bind at 1, lift at 1. rewrite Hmsg.
    cbv zeta. unfold bind at 1, lift at 1. rewrite (bytes_accepts _ Hb).
    unfold bind at 1, on_socket, Socket.send. cbn [fst snd].
    rewrite IH.
    + assert (Himap : imap (fun i x => enc x (fnum + 1 + Z.of_nat i)) rest =
                      imap ((fun i x => enc x (fnum + Z.of_nat i)) ∘ S) rest)
        by (apply imap_ext; intros i x _; simpl; f_equal; lia).
      cbn [imap]. rewrite Z.add_0_r. simpl. rewrite <- app_assoc. simpl.
      rewrite Himap. reflexivity.
    + intros i x Hi. specialize (Hall (S i) x Hi).
      replace (fnum + 1 + Z.of_nat i) with (fnum + Z.of_nat (S i)) by lia. exact Hall.
Qed.

(** The frames the loop has sent when a message fails to build. *)
Lemma set_dynamic_images_from_stops
  (enc : image -> Z -> list Z) (e : exn) (bad : image) (post : list image)
  (pre : list image) :
  forall (fnum : Z) (self : TimeBox),
    (forall (i : nat) (img : image),
       pre !! i = Some img ->
       dynamic_image_message img (fnum + Z.of_nat i) frame_delay
         = Ok (enc img (fnum + Z.of_nat i)) /\
       is_bytes (enc img (fnum + Z.of_nat i))) ->
    dynamic_image_message bad (fnum + Z.of_nat (length pre)) frame_delay = Raise e ->
    set_dynamic_images_from dynamic_image_message fnum (pre ++ bad :: post)
      frame_delay self =
      (Raise e,
       set_socket {| incoming := incoming (socket self);
                     outgoing := outgoing (socket self) ++
                                 imap (fun i img => enc img (fnum + Z.of_nat i)) pre |}
         self).
Proof.
  induction pre as [|img rest IH]; intros fnum self Hall Hbad.
  - simpl in *. rewrite Z.add_0_r in Hbad.
    unfold bind at 1, lift at 1. rewrite Hbad. rewrite app_nil_r.
    destruct self as [m [inc out] buf]. reflexivity.
  - destruct (Hall 0%nat img eq_refl) as [Hmsg Hb].
    rewrite Z.add_0_r in Hmsg, Hb.
    cbn [set_dynamic_images_from app]. unfold bind at 1, lift at 1. rewrite Hmsg.
    cbv zeta. unfold bind at 1, lift at 1. rewrite (bytes_accepts _ Hb).
    unfold bind at 1, on_socket, Socket.send. cbn [fst snd].
    rewrite IH.
    + assert (Himap : imap (fun i x => enc x (fnum + 1 + Z.of_nat i)) rest =
                      imap ((fun i x => enc x (fnum + Z.of_nat i)) ∘ S) rest)
        by (apply imap_ext; intros i x _; simpl; f_equal; lia).
      cbn [imap]. rewrite Z.add_0_r. simpl. rewrite <- app_assoc. simpl.
      rewrite Himap. reflexivity.
    + intros i x Hi. specialize (Hall (S i) x Hi).
      replace (fnum + 1 + Z.of_nat i) with (fnum + Z.of_nat (S i)) by lia. exact Hall.
    + replace (fnum + 1 + Z.of_nat (length rest))
        with (fnum + Z.of_nat (length (img :: rest))) by (simpl; lia).
      exact Hbad.
Qed.

End ImageFrames.

(** [set_dynamic_images] sends one message for each image, in the order of
    the list, and numbers the frames 0, 1, 2, ...: when every frame builds
    to a list of bytes, the socket has sent exactly these messages more. *)
Theorem set_dynamic_images_numbers_frames
  {image : Type} (dynamic_image_message : image -> Z -> Z -> result (list Z))
  (enc : image -> Z -> list Z) (images : list image) (frame_delay : Z)
  (self : TimeBox) :
  (forall (i : nat) (img : image),
     images !! i = Some img ->
     dynamic_image_message img (Z.of_nat i) frame_delay = Ok (enc img (Z.of_nat i)) /\
     is_bytes (enc img (Z.of_nat i))) ->
  set_dynamic_images dynamic_image_message images frame_delay self =
    (Ok tt,
     set_socket {| incoming := incoming (socket self);
                   outgoing := outgoing (socket self) ++
                               imap (fun i img => enc img (Z.of_nat i)) images |}
       self).
Proof.
  intros Hall. unfold set_dynamic_images. cbv zeta.
  rewrite (set_dynamic_images_from_sends dynamic_image_message frame_delay enc images 0 self).
  - reflexivity.
  - intros i img Hi. rewrite Z.add_0_l. apply Hall. exact Hi.
Qed.

Lemma set_dynamic_images_numbers_frames_witness :
  wire (set_dynamic_images (fun (img n d : Z) => Ok [img; n; d]) [0x10; 0x20; 0x30] 5
          (box []))
  = [[0x10; 0; 5]; [0x20; 1; 5]; [0x30; 2; 5]].
Proof.
  rewrite (set_dynamic_images_numbers_frames
             (fun (img n d : Z) => Ok [img; n; d]) (fun img n => [img; n; 5])
             [0x10; 0x20; 0x30] 5 (box [])).
  - reflexivity.
  - intros i img Hi. split; [reflexivity|].
    destruct i as [|[|[|i]]]; simpl in Hi; try discriminate;
      injection Hi as <-; repeat (apply Forall_cons; split; [lia|]); apply Forall_nil; exact I.
Defined.

(** [set_dynamic_images] is not all-or-nothing: when the message of a frame
    fails to build, the call raises, and the frames in front of it have
    been sent already. *)
Theorem set_dynamic_images_partial
  {image : Type} (dynamic_image_message : image -> Z -> Z -> result (list Z))
  (enc : image -> Z -> list Z) (e : exn) (pre : list image) (bad : image)
  (post : list image) (frame_delay : Z) (self : TimeBox) :
  (forall (i : nat) (img : image),
     pre !! i = Some img ->
     dynamic_image_message img (Z.of_nat i) frame_delay = Ok (enc img (Z.of_nat i)) /\
     is_bytes (enc img (Z.of_nat i))) ->
  dynamic_image_message bad (Z.of_nat (length pre)) frame_delay = Raise e ->
  set_dynamic_images dynamic_image_message (pre ++ bad :: post) frame_delay self =
    (Raise e,
     set_socket {| incoming := incoming (socket self);
                   outgoing := outgoing (socket self) ++
                               imap (fun i img => enc img (Z.of_nat i)) pre |}
       self).
Proof.
  intros Hall Hbad. unfold set_dynamic_images. cbv zeta.
  rewrite (set_dynamic_images_from_stops dynamic_image_message frame_delay enc e bad post
             pre 0 self).
  - reflexivity.
  - intros i img Hi. rewrite Z.add_0_l. apply Hall. exact Hi.
  - rewrite Z.add_0_l. exact Hbad.
Qed.

Lemma set_dynamic_images_partial_witness :
  set_dynamic_images
    (fun (img n d : Z) => if img =? 0 then Raise (Exception "no frame") else Ok [img; n; d])
    ([0x10; 0x20] ++ 0 :: [0x30]) 5 (box [])
  = (Raise (Exception "no frame"),
     set_socket {| incoming := []; outgoing := [] ++ [[0x10; 0; 5]; [0x20; 1; 5]] |}
       (box [])).
Proof.
  apply (set_dynamic_images_partial
           (fun (img n d : Z) => if img =? 0 then Raise (Exception "no frame")
                                 else Ok [img; n; d])
           (fun img n => [img; n; 5]) (Exception "no frame") [0x10; 0x20] 0 [0x30] 5
           (box [])).
  - intros i img Hi.
    destruct i as [|[|i]]; simpl in Hi; try discriminate; injection Hi as <-;
      (split; [reflexivity|]);
      repeat (apply Forall_cons; split; [lia|]); apply Forall_nil; exact I.
  - reflexivity.
Defined.

(** ** Receiving and draining *)

(** A [receive] leaves alone what the socket sent and the message
    builder. *)
Lemma receive_keeps_sent (num_bytes : Z) (self : TimeBox) :
  outgoing (socket (receive num_bytes self).2) = outgoing (socket self) /\
  messages (receive num_bytes self).2 = messages self.
Proof.
  pose proof (receive_cases num_bytes self) as H.
  destruct (incoming (socket self)) as [|[|data] rest].
  - rewrite H. auto.
  - rewrite H. auto.
  - destruct (num_bytes <? 0).
    + destruct H as [e ->]. auto.
    + cbv zeta in H. rewrite H. auto.
Qed.

(** What a [receive] leaves in the buffer extends what was there. *)
Lemma receive_extends (num_bytes : Z) (self : TimeBox) :
  exists data, message_buf (receive num_bytes self).2 = message_buf self ++ data.
Proof.
  pose proof (receive_cases num_bytes self) as H.
  destruct (incoming (socket self)) as [|[|data] rest].
  - exists []. rewrite H, app_nil_r. reflexivity.
  - exists []. rewrite H, app_nil_r. reflexivity.
  - destruct (num_bytes <? 0).
    + destruct H as [e ->]. exists []. rewrite app_nil_r. reflexivity.
    + cbv zeta in H. rewrite H. eexists. reflexivity.
Qed.

(** [receive(n)] with [n >= 0] does not raise: it returns how many bytes it
    appended to the buffer, at most [n], and sends nothing. *)
Theorem receive_at_most (num_bytes : Z) (self : TimeBox) :
  0 <= num_bytes ->
  exists data,
    (receive num_bytes self).1 = Ok (Py.len data) /\
    message_buf (receive num_bytes self).2 = message_buf self ++ data /\
    Py.len data <= num_bytes /\
    outgoing (socket (receive num_bytes self).2) = outgoing (socket self).
Proof.
  intros Hn.
  destruct (receive_ok num_bytes self Hn) as (data & self1 & Hrun & Hbuf & Hmax & _).
  exists data. split; [rewrite Hrun; reflexivity|].
  split; [rewrite Hrun; exact Hbuf|]. split; [exact Hmax|].
  apply receive_keeps_sent.
Qed.

Lemma receive_at_most_witness :
  exists data,
    (receive 2 (box_receiving [Ready [0x01; 0x10; 0x02]] [0x07])).1 = Ok (Py.len data) /\
    message_buf (receive 2 (box_receiving [Ready [0x01; 0x10; 0x02]] [0x07])).2
      = [0x07] ++ data /\
    Py.len data <= 2 /\
    outgoing (socket (receive 2 (box_receiving [Ready [0x01; 0x10; 0x02]] [0x07])).2) = [].
Proof.
  apply (receive_at_most 2 (box_receiving [Ready [0x01; 0x10; 0x02]] [0x07])). lia.
Defined.





(** ** Using the buffer predicates and the removals together *)

Lemma contains_app (x : Z) (l1 l2 : list Z) :
  Py.contains x (l1 ++ l2) = Py.contains x l1 || Py.contains x l2.
Proof.
  induction l1 as [|y l1 IH]; simpl; [reflexivity|].
  destruct (y =? x); [reflexivity | exact IH].
Qed.

(** Bytes that arrive do not take back what the predicates reported: when
    the buffer is not empty, [receive] keeps the answer of
    [buffer_starts_with_garbage], and a true [has_message] stays true. *)
Theorem receive_keeps_front (num_bytes : Z) (self : TimeBox) :
  message_buf self <> [] ->
  buffer_starts_with_garbage (receive num_bytes self).2
    = buffer_starts_with_garbage self /\
  (has_message self = true -> has_message (receive num_bytes self).2 = true).
Proof.
  intros Hne. destruct (receive_extends num_bytes self) as [data Hbuf].
  unfold buffer_starts_with_garbage, has_message. rewrite Hbuf.
  destruct (message_buf self) as [|b rest]; [congruence|].
  unfold Py.len. simpl. split; [reflexivity|].
  destruct (Z.eqb_spec b 1) as [->|_]; simpl; [|reflexivity].
  rewrite contains_app. intros ->. reflexivity.
Qed.

Lemma receive_keeps_front_witness :
  buffer_starts_with_garbage
    (receive 1024 (box_receiving [Ready [0x03]] [0x01; 0x10; 0x02])).2
    = buffer_starts_with_garbage (box_receiving [Ready [0x03]] [0x01; 0x10; 0x02]) /\
  (has_message (box_receiving [Ready [0x03]] [0x01; 0x10; 0x02]) = true ->
   has_message (receive 1024 (box_receiving [Ready [0x03]] [0x01; 0x10; 0x02])).2 = true).
Proof.
  apply (receive_keeps_front 1024 (box_receiving [Ready [0x03]] [0x01; 0x10; 0x02])).
  discriminate.
Defined.

(** The intended use: when [has_message] is true and
    [buffer_starts_with_garbage] is false, [remove_message] returns a frame
    that starts with 0x01, ends with the first 0x02 and holds no other
    0x02, and leaves what follows the frame. *)
Theorem remove_message_after_checks (self : TimeBox) :
  has_message self = true ->
  buffer_starts_with_garbage self = false ->
  exists body rest,
    message_buf self = 0x01 :: body ++ 0x02 :: rest /\
    (0x02 ∉ body) /\
    remove_message self = (Ok (0x01 :: body ++ [0x02]), set_message_buf rest self).
Proof.
  unfold has_message, buffer_starts_with_garbage, Py.len.
  destruct (message_buf self) as [|b tail] eqn:Hbuf; simpl; [discriminate|].
  destruct (Z.eqb_spec b 1) as [->|Hne]; simpl; [|discriminate].
  intros Hend _.
  destruct (remove_message_cut self) as [[Hni _] | (pre & post & Hsplit & Hni & Hrun)].
  - rewrite Hbuf in Hni. apply contains_not_elem_of in Hni. simpl in Hni. congruence.
  - rewrite Hbuf in Hsplit. destruct pre as [|p body]; simpl in Hsplit.
    + discriminate.
    + injection Hsplit as <- ->. apply not_elem_of_cons in Hni as [_ Hni].
      exists body, post. split; [reflexivity|]. split; [exact Hni | exact Hrun].
Qed.

Lemma remove_message_after_checks_witness :
  exists body rest,
    [0x01; 0x10; 0x02; 0x01; 0x11] = 0x01 :: body ++ 0x02 :: rest /\
    (0x02 ∉ body) /\
    remove_message (box [0x01; 0x10; 0x02; 0x01; 0x11])
      = (Ok (0x01 :: body ++ [0x02]),
         set_message_buf rest (box [0x01; 0x10; 0x02; 0x01; 0x11])).
Proof.
  apply (remove_message_after_checks (box [0x01; 0x10; 0x02; 0x01; 0x11])); reflexivity.
Defined.

(** After [remove_garbage] the buffer does not start with garbage, and
    [has_message] then tells exactly whether an end marker 0x02 is in the
    buffer, that is, whether [remove_message] will succeed. *)
Theorem remove_garbage_then_checks (self : TimeBox) :
  buffer_starts_with_garbage (remove_garbage self).2 = false /\
  has_message (remove_garbage self).2
    = Py.contains 0x02 (message_buf (remove_garbage self).2) /\
  (has_message (remove_garbage self).2 = true <->
   exists frame, (remove_message (remove_garbage self).2).1 = Ok frame).
Proof.
  destruct (remove_garbage_cut self) as (pre & suf & _ & _ & Hsuf & ->).
  cbn [snd]. set (self1 := set_message_buf suf self).
  assert (Hbuf : message_buf self1 = suf) by reflexivity.
  assert (Hhas : has_message self1 = Py.contains 0x02 suf).
  { unfold has_message, Py.len. rewrite Hbuf.
    destruct Hsuf as [->|[post ->]]; reflexivity. }
  split; [|split].
  - unfold buffer_starts_with_garbage, Py.len. rewrite Hbuf.
    destruct Hsuf as [->|[post ->]]; reflexivity.
  - rewrite Hbuf. exact Hhas.
  - rewrite Hhas.
    destruct (remove_message_cut self1) as [[Hni ->] | (p & q & Hsplit & _ & ->)];
      rewrite Hbuf in *.
    + apply contains_not_elem_of in Hni. rewrite Hni.
      split; [discriminate | intros [frame H]; discriminate].
    + split; [intros _; eexists; reflexivity|]. intros _.
      apply contains_elem_of. rewrite Hsplit. apply elem_of_app. right. left.
Qed.

(** Each successful [remove_message] takes one end marker out of the
    buffer: the frame it returns ends with 0x02 and holds exactly one, and
    the buffer is left with one fewer; it raises exactly when the buffer
    holds none.  So the frames that can be removed are as many as the end
    markers in the buffer. *)
Theorem remove_message_counts (self : TimeBox) :
  match remove_message self with
  | (Ok frame, self') =>
      last frame = Some 0x02 /\
      count_occ Z.eq_dec frame 0x02 = 1%nat /\
      S (count_occ Z.eq_dec (message_buf self') 0x02)
        = count_occ Z.eq_dec (message_buf self) 0x02
  | (Raise _, self') =>
      count_occ Z.eq_dec (message_buf self) 0x02 = 0%nat /\ self' = self
  end.
Proof.
  destruct (remove_message_cut self) as [[Hni ->] | (pre & post & Hsplit & Hni & ->)].
  - split; [|reflexivity]. apply count_occ_not_In.
    intros Hin. apply Hni. apply list_elem_of_In. exact Hin.
  - assert (Hpre : count_occ Z.eq_dec pre 0x02 = 0%nat).
    { apply count_occ_not_In. intros Hin. apply Hni. apply list_elem_of_In. exact Hin. }
    split; [apply last_snoc|]. rewrite Hsplit. simpl message_buf.
    rewrite !count_occ_app, Hpre. simpl.
    destruct (Z.eq_dec 2 2); [|congruence]. split; reflexivity.
Qed.

(** ** The edges of [set_time] *)

Lemma year_tail_empty_below_100 :
  forallb (fun k => year_tail_empty (Z.of_nat k)) (seq 0 (Z.to_nat 100)) = true.
Proof. vm_compute. reflexivity. Qed.

Lemma year_split_three_digits :
  forallb (fun k => year_split_matches (fun y => y mod 10) (fun y => y / 10)
                      (100 + Z.of_nat k))
    (seq 0 (Z.to_nat 900)) = true.
Proof. vm_compute. reflexivity. Qed.

Lemma days_in_month_le_31 (y m : Z) : days_in_month y m <= 31.
Proof.
  unfold days_in_month.
  destruct (m =? 2); [destruct (is_leap y); lia|].
  destruct ((m =? 4) || (m =? 6) || (m =? 9) || (m =? 11)); lia.
Qed.

(** With a year below 100 [set_time] raises [ValueError] before it builds
    a command: [str(year)[2:]] is empty. Nothing is sent. *)
Theorem set_time_short_year_raises (self : TimeBox) (now t : datetime) :
  1 <= year t < 100 ->
  set_time now (Some t) self
    = (Raise (ValueError "invalid literal for int() with base 10"), self).
Proof.
  intros Hy.
  pose proof (proj1 (List.forallb_forall _ _) year_tail_empty_below_100
                (Z.to_nat (year t))) as H.
  cbv beta in H. rewrite Z2Nat.id in H by lia.
  assert (Hin : List.In (Z.to_nat (year t)) (seq 0 (Z.to_nat 100)))
    by (apply List.in_seq; lia).
  specialize (H Hin). unfold year_tail_empty in H.
  unfold set_time, bind at 1, lift at 1.
  destruct (Py.str_slice_from 2 (Py.str (year t))); [reflexivity | discriminate].
Qed.

Lemma set_time_short_year_raises_witness :
  set_time leap_day_2024
    (Some {| year := 99; month := 12; day := 31; hour := 23; minute := 59; second := 59 |})
    (box [0x01])
  = (Raise (ValueError "invalid literal for int() with base 10"), box [0x01]).
Proof.
  apply (set_time_short_year_raises (box [0x01]) leap_day_2024
           {| year := 99; month := 12; day := 31; hour := 23; minute := 59; second := 59 |}).
  simpl. lia.
Defined.

(** With a year of three digits [set_time] sends the last digit and the
    first two digits of the year as its first two arguments. *)
Theorem set_time_three_digit_split (self : TimeBox) (now t : datetime) :
  100 <= year t <= 999 ->
  set_time now (Some t) self =
    send_command (Name "set date time")
      [year t mod 10; year t / 10; month t; day t; hour t; minute t; second t; 0] self.
Proof.
  intros Hy.
  pose proof (proj1 (List.forallb_forall _ _) year_split_three_digits
                (Z.to_nat (year t - 100))) as H.
  cbv beta in H.
  replace (100 + Z.of_nat (Z.to_nat (year t - 100))) with (year t) in H by lia.
  assert (Hin : List.In (Z.to_nat (year t - 100)) (seq 0 (Z.to_nat 900)))
    by (apply List.in_seq; lia).
  specialize (H Hin). unfold year_split_matches in H.
  unfold set_time.
  destruct (Py.int (Py.str_slice_from 2 (Py.str (year t)))) as [lo|]; [|discriminate].
  destruct (Py.int (Py.str_slice_to 2 (Py.str (year t)))) as [hi|]; [|discriminate].
  apply andb_prop in H as [Hlo Hhi]. apply Z.eqb_eq in Hlo, Hhi. subst. reflexivity.
Qed.

Lemma set_time_three_digit_split_witness :
  set_time new_year_eve_999 (Some new_year_eve_999) (box []) =
    send_command (Name "set date time") [9; 99; 12; 31; 23; 59; 59; 0] (box []).
Proof.
  apply (set_time_three_digit_split (box []) new_year_eve_999 new_year_eve_999).
  simpl. lia.
Defined.

(** For a timestamp with a year of four digits the payload of [set_time]
    has eleven elements and every one is a byte, so [bytes] accepts it as
    it is. *)
Theorem set_time_payload_is_bytes (self : TimeBox) (now t : datetime) :
  valid_datetime t ->
  1000 <= year t ->
  exists payload,
    set_time now (Some t) self = (send_payload payload ;;; ret tt) self /\
    length payload = 11%nat /\
    is_bytes payload /\
    Py.bytes payload = Ok payload.
Proof.
  intros (Hyear & Hmonth & Hday & Hhour & Hmin & Hsec) H1000.
  unfold MINYEAR, MAXYEAR in Hyear.
  pose proof (days_in_month_le_31 (year t) (month t)) as H31.
  destruct (year_split (year t)) as [Hlo Hhi]; [lia|].
  assert (Hcode : COMMANDS !! "set date time"%string = Some 0x18)
    by (vm_compute; reflexivity).
  assert (Hb : is_bytes [11; 0; 0x18; year t mod 100; year t / 100; month t; day t;
                         hour t; minute t; second t; 0]).
  { pose proof (Z.mod_pos_bound (year t) 100 ltac:(lia)).
    assert (0 <= year t / 100 < 100)
      by (split; [apply Z.div_pos; lia | apply Z.div_lt_upper_bound; lia]).
    unfold is_bytes. repeat (apply Forall_cons; split; [lia|]). apply Forall_nil. exact I. }
  eexists. split; [|split; [|split; [exact Hb | exact (bytes_accepts _ Hb)]]].
  - unfold set_time.
    unfold bind at 1, lift at 1. rewrite Hlo.
    unfold bind at 1, lift at 1. rewrite Hhi.
    exact (send_command_opcode self (Name "set date time") 0x18 _ Hcode).
  - reflexivity.
Qed.

Lemma set_time_payload_is_bytes_witness :
  exists payload,
    set_time leap_day_2024 (Some leap_day_2024) (box [])
      = (send_payload payload ;;; ret tt) (box []) /\
    length payload = 11%nat /\
    is_bytes payload /\
    Py.bytes payload = Ok payload.
Proof.
  apply (set_time_payload_is_bytes (box []) leap_day_2024 leap_day_2024).
  - vm_compute; repeat split; congruence.
  - vm_compute. congruence.
Defined.

(** ** The colour and image checks of the notification service *)

Section NotifyChecks.

Import Notify.

Variable hex_to_rgb : string -> result (Z * Z * Z).

Lemma color_ok_is_color (chans : list Z) : color_ok chans = true <-> is_color chans.
Proof.
  unfold color_ok, is_color, Py.len. rewrite andb_true_iff, Z.eqb_eq.
  rewrite List.forallb_forall, Forall_forall. unfold chan_ok.
  split; intros [Hlen Hall]; (split; [lia|]); intros n Hn.
  - apply list_elem_of_In in Hn. specialize (Hall n Hn). lia.
  - apply list_elem_of_In in Hn. specialize (Hall n Hn). lia.
Qed.

Lemma valid_color_loop_ints (chans : list Z) :
  forall valid : bool,
    valid_color_loop valid (map VInt chans) = Return (valid && forallb chan_ok chans).
Proof.
  induction chans as [|n chans IH]; intros valid; simpl.
  - rewrite andb_true_r. reflexivity.
  - destruct valid; simpl; rewrite IH; reflexivity.
Qed.

Lemma valid_color_ints (chans : list Z) :
  valid_color hex_to_rgb (color_value chans) = Return (color_ok chans).
Proof.
  unfold valid_color, color_value, color_ok, and_then, Py.len.
  rewrite length_map.
  destruct (Z.of_nat (length chans) =? 3); [|reflexivity].
  rewrite valid_color_loop_ints. reflexivity.
Qed.

Lemma valid_image_row_ints (row : list (list Z)) :
  valid_image_row hex_to_rgb (map color_value row) = Return (forallb color_ok row).
Proof.
  induction row as [|px row IH]; simpl; [reflexivity|].
  rewrite valid_color_ints. simpl.
  destruct (color_ok px); simpl; [exact IH | reflexivity].
Qed.

Lemma valid_image_rows_ints (rows : list (list (list Z))) :
  forall valid : bool,
    valid_image_rows hex_to_rgb valid (map (fun row => VList (map color_value row)) rows)
      = Return (valid && forallb row_ok rows).
Proof.
  induction rows as [|row rows IH]; intros valid; simpl.
  - rewrite andb_true_r. reflexivity.
  - unfold row_ok at 1, Py.len. rewrite length_map.
    destruct (Z.of_nat (length row) =? 11); simpl.
    + rewrite valid_image_row_ints. simpl. rewrite IH.
      destruct (forallb color_ok row), valid; reflexivity.
    + rewrite andb_false_r. reflexivity.
Qed.

End NotifyChecks.

(** [valid_color] on a list of integers does not raise, and answers true
    exactly for three integers that are all between 0 and 15. *)
Theorem valid_color_int_list
  (hex_to_rgb : string -> result (Z * Z * Z)) (chans : list Z) :
  exists valid : bool,
    Notify.valid_color hex_to_rgb (Notify.color_value chans) = Notify.Return valid /\
    (valid = true <-> Notify.is_color chans).
Proof.
  exists (Notify.color_ok chans). split; [apply valid_color_ints | apply color_ok_is_color].
Qed.

(** [valid_color] answers false, without raising, for [None], for an
    integer, and for a list that does not have three elements, whatever
    the elements are. *)
Theorem valid_color_rejects
  (hex_to_rgb : string -> result (Z * Z * Z)) :
  Notify.valid_color hex_to_rgb Notify.VNone = Notify.Return false /\
  (forall n : Z,
     Notify.valid_color hex_to_rgb (Notify.VInt n) = Notify.Return false) /\
  (forall items : list Notify.value,
     length items <> 3%nat ->
     Notify.valid_color hex_to_rgb (Notify.VList items) = Notify.Return false).
Proof.
  split; [reflexivity|]. split; [reflexivity|].
  intros items Hlen. unfold Notify.valid_color, Notify.and_then, Py.len.
  destruct (Z.eqb_spec (Z.of_nat (length items)) 3) as [Heq|_]; [lia | reflexivity].
Qed.

Lemma valid_color_rejects_witness :
  Notify.valid_color (fun _ => Raise (ValueError "not a hex colour"))
    (Notify.VList [Notify.VStr "red"; Notify.VNone]) = Notify.Return false.
Proof.
  apply (proj2 (proj2 (valid_color_rejects (fun _ => Raise (ValueError "not a hex colour"))))).
  simpl. lia.
Defined.

(** In a list of three, [valid_color] compares a channel only while all the
    channels in front of it were in range: a channel that is [None], a
    string or a list raises [TypeError] when the integers in front of it
    are all between 0 and 15, and is passed over, with the answer false,
    when one of them is not. *)
Theorem valid_color_channel_type
  (hex_to_rgb : string -> result (Z * Z * Z))
  (front : list Z) (chan : Notify.value) (back : list Notify.value) :
  length (map Notify.VInt front ++ chan :: back) = 3%nat ->
  (forall n : Z, chan <> Notify.VInt n) ->
  Notify.valid_color hex_to_rgb (Notify.VList (map Notify.VInt front ++ chan :: back)) =
    if forallb Notify.chan_ok front then Notify.Throw Notify.TypeError
    else Notify.Return false.
Proof.
  intros Hlen Hchan. unfold Notify.valid_color, Notify.and_then, Py.len.
  rewrite Hlen. simpl Z.eqb. cbv iota.
  assert (Hloop : forall valid front,
             Notify.valid_color_loop valid (map Notify.VInt front ++ chan :: back) =
               if valid && forallb Notify.chan_ok front then Notify.Throw Notify.TypeError
               else Notify.Return false).
  { clear Hlen front. intros valid front. revert valid.
    induction front as [|n front IH]; intros valid; simpl.
    - destruct valid; simpl.
      + destruct chan as [|n| |]; try reflexivity. exfalso. apply (Hchan n). reflexivity.
      + clear. induction back as [|c back IH]; simpl; [reflexivity | exact IH].
    - destruct valid; simpl.
      + rewrite IH. reflexivity.
      + rewrite IH. reflexivity. }
  rewrite Hloop. reflexivity.
Qed.

Lemma valid_color_channel_type_witness :
  Notify.valid_color (fun _ => Raise (ValueError "not a hex colour"))
    (Notify.VList (map Notify.VInt [16] ++ Notify.VNone :: [Notify.VStr "x"]))
  = Notify.Return false /\
  Notify.valid_color (fun _ => Raise (ValueError "not a hex colour"))
    (Notify.VList (map Notify.VInt [15] ++ Notify.VNone :: [Notify.VStr "x"]))
  = Notify.Throw Notify.TypeError.
Proof.
  split.
  - apply (valid_color_channel_type (fun _ => Raise (ValueError "not a hex colour"))
             [16] Notify.VNone [Notify.VStr "x"]); [reflexivity | discriminate].
  - apply (valid_color_channel_type (fun _ => Raise (ValueError "not a hex colour"))
             [15] Notify.VNone [Notify.VStr "x"]); [reflexivity | discriminate].
Defined.

(** [valid_image] on rows of colours given as lists of integers does not
    raise, and answers true exactly for eleven rows of eleven colours that
    are all three integers between 0 and 15. *)
Theorem valid_image_int_rows
  (hex_to_rgb : string -> result (Z * Z * Z)) (rows : list (list (list Z))) :
  exists valid : bool,
    Notify.valid_image hex_to_rgb (Notify.image_value rows) = Notify.Return valid /\
    (valid = true <->
     length rows = 11%nat /\
     Forall (fun row => length row = 11%nat /\ Forall Notify.is_color row) rows).
Proof.
  exists ((Py.len rows =? 11) && forallb Notify.row_ok rows). split.
  - unfold Notify.valid_image, Notify.image_value, Py.len. rewrite length_map.
    destruct (Z.of_nat (length rows) =? 11); [|reflexivity].
    rewrite valid_image_rows_ints. reflexivity.
  - unfold Py.len. rewrite andb_true_iff, Z.eqb_eq, List.forallb_forall, Forall_forall.
    split; intros [Hlen Hall]; (split; [lia|]); intros row Hrow.
    + apply list_elem_of_In in Hrow. specialize (Hall row Hrow).
      unfold Notify.row_ok, Py.len in Hall. apply andb_true_iff in Hall as [Hn Hpx].
      apply Z.eqb_eq in Hn. split; [lia|]. apply Forall_forall. intros px Hin.
      apply color_ok_is_color. apply (proj1 (List.forallb_forall _ _) Hpx).
      apply list_elem_of_In. exact Hin.
    + apply list_elem_of_In in Hrow. destruct (Hall row Hrow) as [Hn Hpx].
      unfold Notify.row_ok, Py.len. apply andb_true_iff. split; [apply Z.eqb_eq; lia|].
      apply List.forallb_forall. intros px Hin. apply color_ok_is_color.
      apply (proj1 (Forall_forall _ _) Hpx). apply list_elem_of_In. exact Hin.
Qed.

(** For a colour that [valid_color] accepts as a list, [convert_color]
    multiplies the three channels by 16; the results are bytes, and
    [show_clock] with them sends the payload of eight bytes
    [8, 0, 0x45, 0, 1, r * 16, g * 16, b * 16]. *)
Theorem convert_color_then_show_clock
  (hex_to_rgb : string -> result (Z * Z * Z)) (chans : list Z) (self : TimeBox) :
  Notify.valid_color hex_to_rgb (Notify.color_value chans) = Notify.Return true ->
  exists r g b,
    chans = [r; g; b] /\
    Notify.convert_color (Notify.color_value chans)
      = Notify.Return (map Notify.VInt [r * 16; g * 16; b * 16]) /\
    is_bytes [8; 0; 0x45; 0x00; 0x01; r * 16; g * 16; b * 16] /\
    show_clock (Some [r * 16; g * 16; b * 16]) self =
      (send_payload [8; 0; 0x45; 0x00; 0x01; r * 16; g * 16; b * 16] ;;; ret tt) self.
Proof.
  rewrite valid_color_ints. intros Hok. injection Hok as Hok.
  apply color_ok_is_color in Hok as [Hlen Hall].
  destruct chans as [|r [|g [|b [|x chans]]]]; simpl in Hlen; try lia.
  exists r, g, b. split; [reflexivity|]. split; [reflexivity|].
  apply Forall_cons in Hall as [Hr Hall]. apply Forall_cons in Hall as [Hg Hall].
  apply Forall_cons in Hall as [Hb _].
  split.
  - unfold is_bytes. repeat (apply Forall_cons; split; [lia|]). apply Forall_nil. exact I.
  - unfold show_clock.
    exact (send_command_opcode self (Name "set view") 0x45
             [0x00; 0x01; r * 16; g * 16; b * 16] ltac:(vm_compute; reflexivity)).
Qed.

Lemma convert_color_then_show_clock_witness :
  exists r g b,
    [15; 0; 8] = [r; g; b] /\
    Notify.convert_color (Notify.color_value [15; 0; 8])
      = Notify.Return (map Notify.VInt [r * 16; g * 16; b * 16]) /\
    is_bytes [8; 0; 0x45; 0x00; 0x01; r * 16; g * 16; b * 16] /\
    show_clock (Some [r * 16; g * 16; b * 16]) (box []) =
      (send_payload [8; 0; 0x45; 0x00; 0x01; r * 16; g * 16; b * 16] ;;; ret tt) (box []).
Proof.
  apply (convert_color_then_show_clock (fun _ => Raise (ValueError "not a hex colour"))
           [15; 0; 8] (box [])).
  reflexivity.
Defined.

(** A string passes [valid_color] whenever the library can read it as a hex
    colour, and [convert_color] on a string does not give integers: it
    repeats each of the first three characters sixteen times. *)
Theorem string_color_is_not_converted
  (hex_to_rgb : string -> result (Z * Z * Z)) (c0 c1 c2 : ascii) (s : string) :
  let color := String c0 (String c1 (String c2 s)) in
  (forall rgb, hex_to_rgb color = Ok rgb ->
     Notify.valid_color hex_to_rgb (Notify.VStr color) = Notify.Return true) /\
  Notify.convert_color (Notify.VStr color) =
    Notify.Return
      [Notify.VStr (Notify.repeat_string 16 (String c0 EmptyString));
       Notify.VStr (Notify.repeat_string 16 (String c1 EmptyString));
       Notify.VStr (Notify.repeat_string 16 (String c2 EmptyString))].
Proof.
  cbv zeta. split; [|reflexivity].
  intros [[r g] b] Hrgb. unfold Notify.valid_color, Notify.hex2rgb, Notify.and_then.
  rewrite Hrgb. reflexivity.
Qed.
